(** * krbn::components_manager (console_user_server)

    A shallow embedding of
    [src/core/console_user_server/include/components_manager.hpp].

    The class owns eleven nullable smart pointers and one serial queue.
    Every lambda pushed on the queue captures only [this] and the payload
    of the signal, so a queued task is a function of the manager's
    pointers alone.  The embedding therefore has

    - one record field per pointer member, holding [None] for [nullptr]
      and [Some i] for a pointer to the instance numbered [i];
    - one constructor of [task] per lambda handed to [queue_->push_back];
    - a state-and-trace monad [M] in which each member function and each
      task body is written statement by statement; the trace lists the
      calls made on collaborators and the constructions and releases of
      instances, in program order. *)

From Stdlib Require Import List String Bool Arith NArith Lia.
Import ListNotations.
Open Scope string_scope.
Open Scope list_scope.

(** ** Instances, components, signals *)

(** Identity of a heap instance.  [std::make_unique]/[std::make_shared]
    return an object distinct from every earlier one; numbering them in
    allocation order keeps that. *)
Definition instance := nat.

(** [uid_t] *)
Definition uid_t := N.

(** The collaborator classes the manager instantiates. *)
Inductive component : Type :=
| version_monitor
| grabber_alerts_monitor
| console_user_id_monitor
| receiver
| grabber_client
| configuration_monitor
| menu_process_manager
| updater_process_manager
| system_preferences_monitor
| frontmost_application_observer
| input_source_observer.

Definition component_eqb (a b : component) : bool :=
  match a, b with
  | version_monitor, version_monitor
  | grabber_alerts_monitor, grabber_alerts_monitor
  | console_user_id_monitor, console_user_id_monitor
  | receiver, receiver
  | grabber_client, grabber_client
  | configuration_monitor, configuration_monitor
  | menu_process_manager, menu_process_manager
  | updater_process_manager, updater_process_manager
  | system_preferences_monitor, system_preferences_monitor
  | frontmost_application_observer, frontmost_application_observer
  | input_source_observer, input_source_observer => true
  | _, _ => false
  end.

(** The signals the manager connects a slot to. *)
Inductive signal : Type :=
| console_user_id_changed
| bound
| bind_failed
| closed
| alerts_changed
| connected
| connect_failed
| system_preferences_changed
| frontmost_application_changed
| input_source_changed.

(** Results of the [constants::get_...] calls; [constants.hpp] is not part
    of the sources at hand, so the three paths are kept symbolic. *)
Inductive path : Type :=
| user_configuration_directory
| grabber_alerts_json_file_path
| user_core_configuration_file_path.

(** The permission bits written [0700] in the source (octal). *)
Definition mode_0700 : N := 7 * 64.

(** What is handed to a collaborator's constructor. *)
Inductive ctor_arg : Type :=
| no_arg
| with_path (p : path)
| with_configuration_monitor (cm : option instance).

(** ** The members of [components_manager] *)

Record components_manager : Type := mk_components_manager {
  (* Core components *)
  version_monitor_ : option instance;
  grabber_alerts_monitor_ : option instance;
  console_user_id_monitor_ : option instance;
  receiver_ : option instance;
  grabber_client_ : option instance;
  (* Child components *)
  configuration_monitor_ : option instance;
  menu_process_manager_ : option instance;
  updater_process_manager_ : option instance;
  system_preferences_monitor_ : option instance;
  frontmost_application_observer_ : option instance;
  input_source_observer_ : option instance;
  (* number of instances allocated so far *)
  allocated : nat
}.

(** All pointers null: the members before the constructor body runs. *)
Definition null_members : components_manager :=
  mk_components_manager None None None None None None None None None None None 0.

(** The member that holds instances of a given class. *)
Definition slot (c : component) (m : components_manager) : option instance :=
  match c with
  | version_monitor => version_monitor_ m
  | grabber_alerts_monitor => grabber_alerts_monitor_ m
  | console_user_id_monitor => console_user_id_monitor_ m
  | receiver => receiver_ m
  | grabber_client => grabber_client_ m
  | configuration_monitor => configuration_monitor_ m
  | menu_process_manager => menu_process_manager_ m
  | updater_process_manager => updater_process_manager_ m
  | system_preferences_monitor => system_preferences_monitor_ m
  | frontmost_application_observer => frontmost_application_observer_ m
  | input_source_observer => input_source_observer_ m
  end.

Definition set_slot (c : component) (v : option instance)
  (m : components_manager) : components_manager :=
  let '(mk_components_manager vm gam cum rc gc cm mpm upm spm fao iso n) := m in
  match c with
  | version_monitor =>
      mk_components_manager v gam cum rc gc cm mpm upm spm fao iso n
  | grabber_alerts_monitor =>
      mk_components_manager vm v cum rc gc cm mpm upm spm fao iso n
  | console_user_id_monitor =>
      mk_components_manager vm gam v rc gc cm mpm upm spm fao iso n
  | receiver =>
      mk_components_manager vm gam cum v gc cm mpm upm spm fao iso n
  | grabber_client =>
      mk_components_manager vm gam cum rc v cm mpm upm spm fao iso n
  | configuration_monitor =>
      mk_components_manager vm gam cum rc gc v mpm upm spm fao iso n
  | menu_process_manager =>
      mk_components_manager vm gam cum rc gc cm v upm spm fao iso n
  | updater_process_manager =>
      mk_components_manager vm gam cum rc gc cm mpm v spm fao iso n
  | system_preferences_monitor =>
      mk_components_manager vm gam cum rc gc cm mpm upm v fao iso n
  | frontmost_application_observer =>
      mk_components_manager vm gam cum rc gc cm mpm upm spm v iso n
  | input_source_observer =>
      mk_components_manager vm gam cum rc gc cm mpm upm spm fao v n
  end.

Definition allocate (m : components_manager) : components_manager :=
  let '(mk_components_manager vm gam cum rc gc cm mpm upm spm fao iso n) := m in
  mk_components_manager vm gam cum rc gc cm mpm upm spm fao iso (S n).

(** [if (p)] on a smart pointer. *)
Definition non_null (p : option instance) : bool :=
  match p with Some _ => true | None => false end.

Section Manager.

(** Payload types declared in headers that are not at hand. *)
Variable system_preferences : Type.
Variable input_source_identifiers : Type.
Variable alert : Type.

(** The value [getuid()] returns in this process. *)
Variable getuid : uid_t.

(** ** Observable actions *)

Inductive effect : Type :=
(* std::make_unique<C>(arg) / std::make_shared<C>(arg) *)
| constructed (c : component) (i : instance) (arg : ctor_arg)
(* a non-null member loses its pointee: [p = nullptr], or [p = fresh] *)
| released (c : component) (i : instance)
(* p->sg.connect(...) *)
| subscribed (c : component) (i : instance) (sg : signal)
(* p->async_start() (receiver: p->start()) *)
| started (c : component) (i : instance)
| async_manual_check (vm : instance)
| create_directory_with_intermediate_directories (p : path) (mode : N)
| logger_info (msg : string)
| launch_preferences
| async_connect_console_user_server (gc : instance)
| async_system_preferences_updated (gc : instance) (p : system_preferences)
| async_frontmost_application_changed (gc : instance)
    (bundle_identifier file_path : string)
| async_input_source_changed (gc : instance) (ids : input_source_identifiers).

(** ** State and trace monad *)

Definition M (A : Type) : Type :=
  components_manager -> A * components_manager * list effect.

Definition ret {A} (a : A) : M A := fun m => (a, m, []).

Definition bind {A B} (x : M A) (k : A -> M B) : M B :=
  fun m =>
    let '(a, m1, t1) := x m in
    let '(b, m2, t2) := k a m1 in
    (b, m2, t1 ++ t2).

Definition emit (e : effect) : M unit := fun m => (tt, m, [e]).

Definition read (c : component) : M (option instance) :=
  fun m => (slot c m, m, []).

Declare Scope manager_scope.
Delimit Scope manager_scope with manager.
Notation "x <- a ;; k" := (bind a (fun x => k))
  (at level 61, a at next level, right associativity) : manager_scope.
Notation "a ;; k" := (bind a (fun _ => k))
  (at level 61, right associativity) : manager_scope.
Local Open Scope manager_scope.

Definition members_after {A} (x : M A) (m : components_manager)
  : components_manager := snd (fst (x m)).

Definition trace_of {A} (x : M A) (m : components_manager)
  : list effect := snd (x m).

(** [c_ = nullptr;]  Releasing a null pointer does nothing. *)
Definition reset (c : component) : M unit :=
  fun m =>
    match slot c m with
    | Some old => (tt, set_slot c None m, [released c old])
    | None => (tt, m, [])
    end.

(** [c_ = std::make_unique<C>(arg);]  The right-hand side is evaluated
    first; the assignment then releases what the member held. *)
Definition make (c : component) (arg : ctor_arg) : M instance :=
  fun m =>
    let i := allocated m in
    (i, set_slot c (Some i) (allocate m),
     constructed c i arg ::
     match slot c m with
     | Some old => [released c old]
     | None => []
     end).

(** [if (c_) { c_->call(); }] *)
Definition if_non_null (c : component) (call : instance -> effect) : M unit :=
  p <- read c ;;
  match p with
  | Some i => emit (call i)
  | None => ret tt
  end.

(** ** Member functions *)

Definition stop_child_components : M unit :=
  reset menu_process_manager ;;
  reset updater_process_manager ;;
  reset system_preferences_monitor ;;
  reset frontmost_application_observer ;;
  reset input_source_observer ;;
  reset configuration_monitor.

Definition start_child_components : M unit :=
  cm <- make configuration_monitor
          (with_path user_core_configuration_file_path) ;;
  (* menu_process_manager_ *)
  cm1 <- read configuration_monitor ;;
  make menu_process_manager (with_configuration_monitor cm1) ;;
  (* updater_process_manager_ *)
  cm2 <- read configuration_monitor ;;
  make updater_process_manager (with_configuration_monitor cm2) ;;
  (* system_preferences_monitor_ *)
  cm3 <- read configuration_monitor ;;
  spm <- make system_preferences_monitor (with_configuration_monitor cm3) ;;
  emit (subscribed system_preferences_monitor spm system_preferences_changed) ;;
  emit (started system_preferences_monitor spm) ;;
  (* frontmost_application_observer_ *)
  fao <- make frontmost_application_observer no_arg ;;
  emit (subscribed frontmost_application_observer fao
          frontmost_application_changed) ;;
  emit (started frontmost_application_observer fao) ;;
  (* input_source_observer_ *)
  iso <- make input_source_observer no_arg ;;
  emit (subscribed input_source_observer iso input_source_changed) ;;
  emit (started input_source_observer iso) ;;
  (* Start configuration_monitor_ *)
  emit (started configuration_monitor cm).

Definition stop_grabber_client : M unit :=
  reset grabber_client ;;
  stop_child_components.

Definition start_grabber_client : M unit :=
  p <- read grabber_client ;;
  if non_null p then ret tt
  else
    gc <- make grabber_client no_arg ;;
    emit (subscribed grabber_client gc connected) ;;
    emit (subscribed grabber_client gc connect_failed) ;;
    emit (subscribed grabber_client gc closed) ;;
    emit (started grabber_client gc).

Definition start_grabber_alerts_monitor : M unit :=
  p <- read grabber_alerts_monitor ;;
  if non_null p then ret tt
  else
    gam <- make grabber_alerts_monitor
             (with_path grabber_alerts_json_file_path) ;;
    emit (subscribed grabber_alerts_monitor gam alerts_changed) ;;
    emit (started grabber_alerts_monitor gam).

(** ** Queued tasks

    One constructor per lambda passed to [queue_->push_back], carrying
    what the lambda captures besides [this].  The payload of
    [console_user_id_changed] is declared in [console_user_id_monitor.hpp],
    which is not at hand; the task compares it with [getuid()] by [!=],
    and it is taken to be a [uid_t]. *)

Inductive task : Type :=
| on_console_user_id_changed (uid : uid_t)
| on_receiver_bound
| on_receiver_bind_failed
| on_receiver_closed
| on_alerts_changed (alerts : list alert)
| on_grabber_client_connected
| on_grabber_client_connect_failed
| on_grabber_client_closed
| on_system_preferences_changed (p : system_preferences)
| on_frontmost_application_changed (bundle_identifier file_path : string)
| on_input_source_changed (ids : input_source_identifiers)
| on_destruction.

(** [alerts.empty()] *)
Definition empty (alerts : list alert) : bool :=
  match alerts with [] => true | _ :: _ => false end.

Definition run_task (t : task) : M unit :=
  match t with
  | on_console_user_id_changed uid =>
      if_non_null version_monitor async_manual_check ;;
      emit (create_directory_with_intermediate_directories
              user_configuration_directory mode_0700) ;;
      if negb (N.eqb uid getuid) then
        stop_grabber_client
      else
        rc <- make receiver no_arg ;;
        emit (subscribed receiver rc bound) ;;
        emit (subscribed receiver rc bind_failed) ;;
        emit (subscribed receiver rc closed) ;;
        emit (started receiver rc)
  | on_receiver_bound =>
      stop_grabber_client ;;
      start_grabber_client
  | on_receiver_bind_failed =>
      stop_grabber_client
  | on_receiver_closed =>
      stop_grabber_client
  | on_alerts_changed alerts =>
      emit (logger_info "karabiner_grabber_alerts.json is updated.") ;;
      if negb (empty alerts) then emit launch_preferences else ret tt
  | on_grabber_client_connected =>
      if_non_null version_monitor async_manual_check ;;
      if_non_null grabber_client async_connect_console_user_server ;;
      stop_child_components ;;
      start_child_components
  | on_grabber_client_connect_failed =>
      if_non_null version_monitor async_manual_check ;;
      stop_child_components
  | on_grabber_client_closed =>
      if_non_null version_monitor async_manual_check ;;
      stop_child_components
  | on_system_preferences_changed p =>
      if_non_null grabber_client
        (fun gc => async_system_preferences_updated gc p)
  | on_frontmost_application_changed bundle_identifier file_path =>
      if String.eqb bundle_identifier "org.pqrs.Karabiner.EventViewer"
         || String.eqb bundle_identifier "org.pqrs.Karabiner-EventViewer"
      then ret tt
      else
        if_non_null grabber_client
          (fun gc => async_frontmost_application_changed
                       gc bundle_identifier file_path)
  | on_input_source_changed ids =>
      if_non_null grabber_client
        (fun gc => async_input_source_changed gc ids)
  | on_destruction =>
      stop_grabber_client ;;
      reset console_user_id_monitor ;;
      reset receiver ;;
      reset grabber_alerts_monitor ;;
      reset version_monitor
  end.

(** The queue's worker: tasks run one at a time, in the order pushed. *)
Fixpoint process (q : list task) : M unit :=
  match q with
  | [] => ret tt
  | t :: q' => run_task t ;; process q'
  end.

(** Body of [components_manager(void)]. *)
Definition construct : M unit :=
  make version_monitor no_arg ;;
  start_grabber_alerts_monitor ;;
  cum <- make console_user_id_monitor no_arg ;;
  emit (subscribed console_user_id_monitor cum console_user_id_changed) ;;
  emit (started console_user_id_monitor cum).

(** Body of [~components_manager(void)] when [pending] is still queued:
    the teardown task goes behind it and [terminate] drains the queue. *)
Definition destruct_manager (pending : list task) : M unit :=
  process (pending ++ [on_destruction]).

(** The members once the constructor has returned. *)
Definition constructed_members : components_manager :=
  members_after construct null_members.

(** The members after the start-up sequence: the console user is this
    process's user, the receiver has bound and the client has connected. *)
Definition active_members : components_manager :=
  members_after
    (process [on_console_user_id_changed getuid;
              on_receiver_bound;
              on_grabber_client_connected])
    constructed_members.

(** ** Reading traces *)

(** The classes whose instances a trace releases, in order. *)
Fixpoint releases (t : list effect) : list component :=
  match t with
  | [] => []
  | released c _ :: t' => c :: releases t'
  | _ :: t' => releases t'
  end.

(** Constructions and starts only. *)
Definition is_lifecycle (e : effect) : bool :=
  match e with
  | constructed _ _ _ | started _ _ => true
  | _ => false
  end.

Definition is_launch_preferences (e : effect) : bool :=
  match e with launch_preferences => true | _ => false end.

Definition is_logger_info (e : effect) : bool :=
  match e with logger_info _ => true | _ => false end.

Definition is_system_preferences_updated (e : effect) : bool :=
  match e with async_system_preferences_updated _ _ => true | _ => false end.

Definition count (f : effect -> bool) (t : list effect) : nat :=
  List.length (filter f t).

(** The members of the child group, in the order [stop_child_components]
    clears them. *)
Definition child_group : list component :=
  [menu_process_manager; updater_process_manager;
   system_preferences_monitor; frontmost_application_observer;
   input_source_observer; configuration_monitor].

Definition is_child (c : component) : bool :=
  existsb (component_eqb c) child_group.

(** Those of [cs] whose member is non-null in [m]. *)
Definition held (m : components_manager) (cs : list component)
  : list component :=
  filter (fun c => non_null (slot c m)) cs.

Definition child_group_absent (m : components_manager) : Prop :=
  forall c, is_child c = true -> slot c m = None.

(** The order "child group, then client, then receiver" on a list of
    releases: nothing of the child group after the client, and neither
    the client nor a child after the receiver. *)
Fixpoint children_client_receiver_order (cs : list component) : bool :=
  match cs with
  | [] => true
  | c :: rest =>
      (if component_eqb c grabber_client
       then negb (existsb is_child rest) else true)
      && (if component_eqb c receiver
          then negb (existsb
                       (fun d => component_eqb d grabber_client || is_child d)
                       rest)
          else true)
      && children_client_receiver_order rest
  end.

(** The two bundle identifiers the frontmost-application task returns on. *)
Definition is_event_viewer (bundle_identifier : string) : Prop :=
  bundle_identifier = "org.pqrs.Karabiner.EventViewer"
  \/ bundle_identifier = "org.pqrs.Karabiner-EventViewer".

(** [if (version_monitor_) version_monitor_->async_manual_check();] as a
    piece of trace. *)
Definition manual_check_if_held (m : components_manager) : list effect :=
  match version_monitor_ m with
  | Some vm => [async_manual_check vm]
  | None => []
  end.

(** The releases made when the members [cs] are cleared in that order. *)
Definition release_held (m : components_manager) (cs : list component)
  : list effect :=
  flat_map
    (fun c => match slot c m with
              | Some i => [released c i]
              | None => []
              end)
    cs.

(** Every held instance was numbered by an earlier allocation. *)
Definition numbered (m : components_manager) : Prop :=
  forall c i, slot c m = Some i -> i < allocated m.

(** A computation that keeps the numbering invariant. *)
Definition keeps_numbered {A} (x : M A) : Prop :=
  forall m, numbered m -> numbered (members_after x m).

(** ** Accounting of instances *)




Definition is_input_source_changed (e : effect) : bool :=
  match e with async_input_source_changed _ _ => true | _ => false end.



Definition child_group_present (m : components_manager) : Prop :=
  forall c, is_child c = true -> slot c m <> None.

(** The child group is whole: all six members null, or all six held. *)
Definition child_group_atomic (m : components_manager) : Prop :=
  child_group_absent m \/ child_group_present m.

(** The constructor followed by the tasks [q] on the queue. *)
Definition lifetime (q : list task) : M unit :=
  construct ;; process q.


(** ** Proof support *)

Ltac members m :=
  destruct m as [vm gam cum rc gc cm mpm upm spm fao iso n].

(** Case analysis on the child-group pointers only. *)
Ltac children :=
  match goal with
  | cm : option instance, mpm : option instance, upm : option instance,
    spm : option instance, fao : option instance, iso : option instance
    |- _ => destruct cm, mpm, upm, spm, fao, iso
  end.

Ltac run := cbv [members_after trace_of]; cbn.


(** ** Instance numbers

    Each construct of the monad keeps [numbered]; the member functions and
    tasks inherit it rule by rule. *)

Lemma keeps_ret {A} (a : A) : keeps_numbered (ret a).
Proof. intros m H. exact H. Qed.

Lemma keeps_emit (e : effect) : keeps_numbered (emit e).
Proof. intros m H. exact H. Qed.

Lemma keeps_read (c : component) : keeps_numbered (read c).
Proof. intros m H. exact H. Qed.

Lemma keeps_bind {A B} (x : M A) (k : A -> M B) :
  keeps_numbered x -> (forall a, keeps_numbered (k a)) ->
  keeps_numbered (bind x k).
Proof.
  intros Hx Hk m H. unfold members_after, bind.
  specialize (Hx m H). unfold members_after in Hx.
  destruct (x m) as [[a m1] t1]. cbn in Hx.
  specialize (Hk a m1 Hx). unfold members_after in Hk.
  destruct (k a m1) as [[b m2] t2]. exact Hk.
Qed.

Lemma keeps_reset (c : component) : keeps_numbered (reset c).
Proof.
  intros m H d i. unfold members_after, reset.
  destruct (slot c m) eqn:Hc; cbn [fst snd]; [| apply H].
  members m. specialize (H d i).
  destruct c, d; cbn in *; (discriminate || exact H).
Qed.

Lemma keeps_make (c : component) (arg : ctor_arg) : keeps_numbered (make c arg).
Proof.
  intros m H d i. unfold members_after, make. cbn [fst snd].
  members m. specialize (H d i).
  destruct c, d; cbn in *; intros Hd;
    solve [ injection Hd as <-; lia | specialize (H Hd); lia ].
Qed.

Lemma keeps_if_non_null (c : component) (call : instance -> effect) :
  keeps_numbered (if_non_null c call).
Proof.
  unfold if_non_null. apply keeps_bind; [apply keeps_read |].
  intros [i |]; [apply keeps_emit | apply keeps_ret].
Qed.

Ltac keeps :=
  repeat first
    [ apply keeps_ret | apply keeps_emit | apply keeps_read
    | apply keeps_reset | apply keeps_make | apply keeps_if_non_null
    | apply keeps_bind; [| intros ?]
    | match goal with
      | |- keeps_numbered (if ?b then _ else _) => destruct b
      end ].

Lemma keeps_stop_child_components : keeps_numbered stop_child_components.
Proof. unfold stop_child_components. keeps. Qed.

Lemma keeps_start_child_components : keeps_numbered start_child_components.
Proof. unfold start_child_components. keeps. Qed.

Lemma keeps_stop_grabber_client : keeps_numbered stop_grabber_client.
Proof.
  unfold stop_grabber_client.
  apply keeps_bind; [apply keeps_reset |].
  intros _. apply keeps_stop_child_components.
Qed.

Lemma keeps_start_grabber_client : keeps_numbered start_grabber_client.
Proof. unfold start_grabber_client. keeps. Qed.

Lemma keeps_run_task (t : task) : keeps_numbered (run_task t).
Proof.
  destruct t; cbn [run_task];
    repeat first
      [ apply keeps_stop_grabber_client
      | apply keeps_start_grabber_client
      | apply keeps_stop_child_components
      | apply keeps_start_child_components
      | progress keeps ].
Qed.

Lemma keeps_process (q : list task) : keeps_numbered (process q).
Proof.
  induction q as [| t q IH]; cbn [process].
  - apply keeps_ret.
  - apply keeps_bind; [apply keeps_run_task | intros _; exact IH].
Qed.

Lemma numbered_constructed_members : numbered constructed_members.
Proof.
  intros c i. destruct c; cbn; intros H; inversion H; lia.
Qed.

(** Whatever the queue has run since construction, the number handed out
    by the next allocation is held by no member. *)
Lemma next_instance_is_new (q : list task) (c : component) :
  let m := members_after (process q) constructed_members in
  slot c m <> Some (allocated m).
Proof.
  cbv zeta. intros H.
  apply (keeps_process q _ numbered_constructed_members) in H. lia.
Qed.

(** ** The queue *)

(** A task that neither writes a member nor calls anything can be dropped
    from the front of the queue. *)
Lemma process_skip (t : task) (q : list task) (m : components_manager) :
  run_task t m = (tt, m, []) -> process (t :: q) m = process q m.
Proof.
  intros H. cbn [process]. unfold bind. rewrite H.
  destruct (process q m) as [[u m'] tr]. destruct u. reflexivity.
Qed.

(** The trace of a queue is the trace of its head followed by the trace
    of the rest, run from the members the head leaves. *)
Lemma trace_of_process_cons (t : task) (q : list task) (m : components_manager) :
  trace_of (process (t :: q)) m =
  trace_of (run_task t) m ++ trace_of (process q) (members_after (run_task t) m).
Proof.
  unfold trace_of, members_after. cbn [process]. unfold bind.
  destruct (run_task t m) as [[u m1] t1]. cbn.
  destruct (process q m1) as [[u' m2] t2]. reflexivity.
Qed.

Lemma members_after_process_cons (t : task) (q : list task)
  (m : components_manager) :
  members_after (process (t :: q)) m =
  members_after (process q) (members_after (run_task t) m).
Proof.
  unfold members_after. cbn [process]. unfold bind.
  destruct (run_task t m) as [[u m1] t1]. cbn.
  destruct (process q m1) as [[u' m2] t2]. reflexivity.
Qed.

Lemma process_app (q1 q2 : list task) (m : components_manager) :
  trace_of (process (q1 ++ q2)) m =
  trace_of (process q1) m
  ++ trace_of (process q2) (members_after (process q1) m).
Proof.
  revert m. induction q1 as [| t q1 IH]; intros m.
  - reflexivity.
  - cbn [app]. rewrite !trace_of_process_cons, members_after_process_cons.
    rewrite IH, app_assoc. reflexivity.
Qed.

Lemma releases_app (t1 t2 : list effect) :
  releases (t1 ++ t2) = releases t1 ++ releases t2.
Proof.
  induction t1 as [| e t1 IH]; [reflexivity |].
  destruct e; cbn; rewrite ?IH; reflexivity.
Qed.

(** What the alerts task does, for any alert list and any members. *)
Lemma run_on_alerts_changed (alerts : list alert) (m : components_manager) :
  run_task (on_alerts_changed alerts) m =
  (tt, m,
   logger_info "karabiner_grabber_alerts.json is updated."
   :: (if empty alerts then [] else [launch_preferences])).
Proof. destruct alerts; reflexivity. Qed.

Lemma string_eqb_neq (a b : string) : a <> b -> String.eqb a b = false.
Proof. intros H. apply String.eqb_neq. exact H. Qed.

(** ** Forwarding of observer events *)

(** C5.  A [system_preferences_changed] task run while [grabber_client_]
    is non-null makes exactly one [async_system_preferences_updated] call,
    on that client and with the payload of the signal, and changes no
    member.  Run while [grabber_client_] is null it does nothing at all, so
    the queue behaves as if the task had never been pushed: nothing is
    kept for later.  After the start-up sequence (own uid, receiver bound,
    client connected) one such task yields one such call in the whole
    trace since construction. *)
Theorem system_preferences_forwarded_once
  (p : system_preferences) (m : components_manager) :
  (forall gc, grabber_client_ m = Some gc ->
     run_task (on_system_preferences_changed p) m =
     (tt, m, [async_system_preferences_updated gc p]))
  /\ (grabber_client_ m = None ->
      run_task (on_system_preferences_changed p) m = (tt, m, [])
      /\ forall q, process (on_system_preferences_changed p :: q) m
                   = process q m)
  /\ filter is_system_preferences_updated
       (trace_of
          (process [on_console_user_id_changed getuid;
                    on_receiver_bound;
                    on_grabber_client_connected;
                    on_system_preferences_changed p])
          constructed_members)
     = [async_system_preferences_updated 4 p].
Proof.
  split; [| split].
  - intros g H. members m. cbn in H. subst. reflexivity.
  - intros H. members m. cbn in H. subst.
    split; [reflexivity |].
    intros q. apply process_skip. reflexivity.
  - cbv [trace_of constructed_members members_after]. cbn.
    rewrite N.eqb_refl. reflexivity.
Qed.

(** C6.  A [frontmost_application_changed] task whose bundle identifier is
    one of the two event-viewer identifiers returns before the client is
    looked at: no call is made and no member changes, whatever
    [grabber_client_] holds.  For any other bundle identifier, and
    [grabber_client_] non-null, the task makes exactly the call
    [async_frontmost_application_changed] with the identifier and path it
    was given. *)
Theorem frontmost_application_filter
  (bundle_identifier file_path : string) (m : components_manager) :
  (is_event_viewer bundle_identifier ->
     run_task (on_frontmost_application_changed bundle_identifier file_path) m
     = (tt, m, []))
  /\ (~ is_event_viewer bundle_identifier ->
      forall gc, grabber_client_ m = Some gc ->
        run_task (on_frontmost_application_changed bundle_identifier file_path) m
        = (tt, m, [async_frontmost_application_changed
                     gc bundle_identifier file_path])).
Proof.
  split.
  - intros [-> | ->]; reflexivity.
  - intros H gc' Hgc. unfold is_event_viewer in H.
    cbn [run_task].
    rewrite (string_eqb_neq bundle_identifier "org.pqrs.Karabiner.EventViewer")
      by tauto.
    rewrite (string_eqb_neq bundle_identifier "org.pqrs.Karabiner-EventViewer")
      by tauto.
    members m. cbn in Hgc. subst. reflexivity.
Qed.

(** ** The alerts task *)

(** C7.  An [alerts_changed] task with a non-empty alert list calls
    [launch_preferences] exactly once; with an empty list it does not call
    it.  Nothing is remembered between tasks: a queue of [k] tasks with
    the same non-empty list calls it [k] times. *)
Theorem launch_preferences_once_per_nonempty_alerts
  (alerts : list alert) (m : components_manager) :
  count is_launch_preferences (trace_of (run_task (on_alerts_changed alerts)) m)
  = (if empty alerts then 0 else 1)
  /\ forall k,
       count is_launch_preferences
         (trace_of (process (repeat (on_alerts_changed alerts) k)) m)
       = (if empty alerts then 0 else k).
Proof.
  split.
  - unfold trace_of. rewrite run_on_alerts_changed.
    destruct alerts; reflexivity.
  - induction k as [| k IH].
    + destruct alerts; reflexivity.
    + cbn [repeat]. rewrite trace_of_process_cons.
      unfold members_after, trace_of at 1.
      rewrite run_on_alerts_changed. cbn [fst snd].
      unfold count in *. rewrite filter_app, length_app, IH.
      destruct alerts; reflexivity.
Qed.

(** C9.  Every [alerts_changed] task starts by logging
    "karabiner_grabber_alerts.json is updated.", also when the alert list
    is empty; the log line is written once per task, and only the call to
    [launch_preferences] depends on the list. *)
Theorem alerts_logged_unconditionally
  (alerts : list alert) (m : components_manager) :
  (exists rest,
     trace_of (run_task (on_alerts_changed alerts)) m
     = logger_info "karabiner_grabber_alerts.json is updated." :: rest
     /\ count is_logger_info rest = 0
     /\ rest = if empty alerts then [] else [launch_preferences])
  /\ trace_of (run_task (on_alerts_changed [])) m
     = [logger_info "karabiner_grabber_alerts.json is updated."].
Proof.
  split.
  - unfold trace_of. rewrite run_on_alerts_changed. cbn [snd].
    eexists. split; [reflexivity |].
    destruct alerts; split; reflexivity.
  - reflexivity.
Qed.

(** ** Session identity *)

(** C1 (as the code has it).  A [console_user_id_changed] task carrying
    the process's own uid checks the version (when [version_monitor_] is
    held), creates the configuration directory, constructs a new receiver
    (not the one held before, when the members are numbered), releases the
    receiver held before (after the new one exists), connects [bound],
    [bind_failed] and [closed] and starts the new receiver.  No other
    member is written: [grabber_client_] and the child group are as they
    were before the task. *)
Theorem own_uid_replaces_receiver_only (m : components_manager) :
  let t := on_console_user_id_changed getuid in
  let m' := members_after (run_task t) m in
  let rc' := allocated m in
  receiver_ m' = Some rc'
  /\ (numbered m -> receiver_ m <> Some rc')
  /\ (forall c, c <> receiver -> slot c m' = slot c m)
  /\ trace_of (run_task t) m
     = manual_check_if_held m
       ++ [create_directory_with_intermediate_directories
             user_configuration_directory mode_0700;
           constructed receiver rc' no_arg]
       ++ release_held m [receiver]
       ++ [subscribed receiver rc' bound;
           subscribed receiver rc' bind_failed;
           subscribed receiver rc' closed;
           started receiver rc'].
Proof.
  members m. run. rewrite N.eqb_refl.
  destruct vm, rc; cbn;
    (split; [reflexivity | split; [| split; [| reflexivity]]]);
    try (intros c Hc; destruct c; try reflexivity; congruence);
    intros Hn Hrc; specialize (Hn receiver _ Hrc); cbn in Hn; lia.
Qed.

(** C2 (as the code has it).  A [console_user_id_changed] task carrying a
    uid other than the process's own leaves [grabber_client_] and the
    whole child group null.  [receiver_] is not written and no receiver is
    released; the monitors created by the constructor stay as well. *)
Theorem other_uid_stops_client_keeps_receiver
  (uid : uid_t) (m : components_manager) :
  uid <> getuid ->
  let t := on_console_user_id_changed uid in
  let m' := members_after (run_task t) m in
  grabber_client_ m' = None
  /\ child_group_absent m'
  /\ receiver_ m' = receiver_ m
  /\ version_monitor_ m' = version_monitor_ m
  /\ grabber_alerts_monitor_ m' = grabber_alerts_monitor_ m
  /\ console_user_id_monitor_ m' = console_user_id_monitor_ m
  /\ ~ In receiver (releases (trace_of (run_task t) m)).
Proof.
  intros Hne. apply N.eqb_neq in Hne.
  members m.
  destruct vm, gc; children; cbn; rewrite Hne; cbn; repeat split;
    try (intros c Hc; destruct c; (reflexivity || discriminate));
    intros Hin; cbn in Hin; intuition discriminate.
Qed.

(** ** Teardown order *)

(** The order check accepts "child group, client, receiver" and rejects a
    client released ahead of a child. *)
Lemma children_client_receiver_order_examples :
  children_client_receiver_order (child_group ++ [grabber_client; receiver])
  = true
  /\ children_client_receiver_order [grabber_client; configuration_monitor]
     = false
  /\ children_client_receiver_order [configuration_monitor; receiver; grabber_client]
     = false.
Proof. repeat split. Qed.

(** C3 (as the code has it).  [stop_grabber_client] clears
    [grabber_client_] first and the child group after it, the
    configuration monitor last.  The tasks for a foreign uid, a failed
    bind and a closed receiver release exactly these, in this order, and
    never the receiver.  The destructor's task continues with the console
    user id monitor, the receiver, the alerts monitor and the version
    monitor; the destructor runs it behind whatever is still queued. *)
Theorem teardown_releases_client_first (m : components_manager) :
  trace_of stop_grabber_client m = release_held m (grabber_client :: child_group)
  /\ (forall uid, uid <> getuid ->
        releases (trace_of (run_task (on_console_user_id_changed uid)) m)
        = held m (grabber_client :: child_group))
  /\ releases (trace_of (run_task on_receiver_bind_failed) m)
     = held m (grabber_client :: child_group)
  /\ releases (trace_of (run_task on_receiver_closed) m)
     = held m (grabber_client :: child_group)
  /\ releases (trace_of (run_task on_destruction) m)
     = held m (grabber_client :: child_group
               ++ [console_user_id_monitor; receiver;
                   grabber_alerts_monitor; version_monitor])
  /\ (forall pending,
        releases (trace_of (destruct_manager pending) m)
        = releases (trace_of (process pending) m)
          ++ held (members_after (process pending) m)
               (grabber_client :: child_group
                ++ [console_user_id_monitor; receiver;
                    grabber_alerts_monitor; version_monitor])).
Proof.
  assert (Hd : forall m1,
             releases (trace_of (run_task on_destruction) m1)
             = held m1 (grabber_client :: child_group
                        ++ [console_user_id_monitor; receiver;
                            grabber_alerts_monitor; version_monitor])).
  { intros m1. members m1.
    destruct vm, gam, cum, rc, gc; children; reflexivity. }
  split; [| split; [| split; [| split; [| split]]]];
    [ | | | | apply Hd
    | intros pending; unfold destruct_manager;
      rewrite process_app, releases_app, trace_of_process_cons;
      cbn [process]; unfold trace_of at 3, ret; cbn [snd];
      rewrite app_nil_r, Hd; reflexivity ];
    members m.
  - destruct gc; children; reflexivity.
  - intros uid Hne. apply N.eqb_neq in Hne.
    destruct vm, gc; children; cbn; rewrite Hne; reflexivity.
  - destruct gc; children; reflexivity.
  - destruct gc; children; reflexivity.
Qed.

(** ** Client failure *)

(** C4 (as the code has it).  The [connect_failed] and [closed] tasks of
    the client check the version (when [version_monitor_] is held) and
    clear the child group, and that is all: every member outside the child
    group, [grabber_client_] and [receiver_] among them, is left as it
    was. *)
Theorem client_failure_stops_children_only
  (t : task) (m : components_manager) :
  t = on_grabber_client_connect_failed \/ t = on_grabber_client_closed ->
  let m' := members_after (run_task t) m in
  trace_of (run_task t) m = manual_check_if_held m ++ release_held m child_group
  /\ child_group_absent m'
  /\ (forall c, is_child c = false -> slot c m' = slot c m)
  /\ grabber_client_ m' = grabber_client_ m
  /\ receiver_ m' = receiver_ m.
Proof.
  intros [-> | ->]; members m;
    destruct vm; children; cbn; repeat split;
    intros c Hc; destruct c; (reflexivity || discriminate).
Qed.

(** ** Repeated session identity *)

(** C8 (as the code has it).  Two [console_user_id_changed] tasks with the
    process's own uid leave the same members null and non-null as one, and
    identical members apart from [receiver_], which holds the receiver the
    second task constructed.  The second task is not silent: it repeats
    the version check, the directory creation and the construction,
    subscription and start of a receiver, and releases the receiver of the
    first task once the new one exists. *)
Theorem repeated_own_uid_same_occupancy (m : components_manager) :
  let t := on_console_user_id_changed getuid in
  let m1 := members_after (process [t]) m in
  let m2 := members_after (process [t; t]) m in
  let rc1 := allocated m in
  let rc2 := S (allocated m) in
  (forall c, non_null (slot c m2) = non_null (slot c m1))
  /\ (forall c, c <> receiver -> slot c m2 = slot c m1)
  /\ receiver_ m1 = Some rc1
  /\ receiver_ m2 = Some rc2
  /\ trace_of (run_task t) m1
     = manual_check_if_held m
       ++ [create_directory_with_intermediate_directories
             user_configuration_directory mode_0700;
           constructed receiver rc2 no_arg;
           released receiver rc1;
           subscribed receiver rc2 bound;
           subscribed receiver rc2 bind_failed;
           subscribed receiver rc2 closed;
           started receiver rc2].
Proof.
  members m. run. rewrite N.eqb_refl.
  destruct vm, rc; cbn; rewrite ?N.eqb_refl; cbn;
    (split; [| split; [| repeat split]]);
    intros c; destruct c; try reflexivity; congruence.
Qed.

(** ** Creation of the child group *)

(** C10.  [start_child_components] constructs the configuration monitor
    before anything else and starts it after everything else: between the
    two lie the constructions of the menu and updater process managers
    and the construction and start of the system preferences monitor, the
    frontmost application observer and the input source observer, the
    first three handed the new configuration monitor.  The same holds for
    the whole [connected] task, which clears the child group first. *)
Theorem configuration_monitor_constructed_first_started_last
  (m : components_manager) :
  let n := allocated m in
  let order :=
    [constructed configuration_monitor n
       (with_path user_core_configuration_file_path);
     constructed menu_process_manager (n + 1)
       (with_configuration_monitor (Some n));
     constructed updater_process_manager (n + 2)
       (with_configuration_monitor (Some n));
     constructed system_preferences_monitor (n + 3)
       (with_configuration_monitor (Some n));
     started system_preferences_monitor (n + 3);
     constructed frontmost_application_observer (n + 4) no_arg;
     started frontmost_application_observer (n + 4);
     constructed input_source_observer (n + 5) no_arg;
     started input_source_observer (n + 5);
     started configuration_monitor n] in
  filter is_lifecycle (trace_of start_child_components m) = order
  /\ hd_error (trace_of start_child_components m)
     = Some (constructed configuration_monitor n
               (with_path user_core_configuration_file_path))
  /\ hd_error (rev (trace_of start_child_components m))
     = Some (started configuration_monitor n)
  /\ filter is_lifecycle (trace_of (run_task on_grabber_client_connected) m)
     = order
  /\ hd_error (rev (trace_of (run_task on_grabber_client_connected) m))
     = Some (started configuration_monitor n).
Proof.
  members m. cbn zeta. cbn [allocated].
  replace (n + 1) with (S n) by lia.
  replace (n + 2) with (S (S n)) by lia.
  replace (n + 3) with (S (S (S n))) by lia.
  replace (n + 4) with (S (S (S (S n)))) by lia.
  replace (n + 5) with (S (S (S (S (S n))))) by lia.
  destruct vm, gc; children; repeat split; reflexivity.
Qed.

(** ** Accounting of instances: rules *)


Lemma members_after_bind {A B} (x : M A) (k : A -> M B)
  (m : components_manager) :
  members_after (bind x k) m
  = members_after (k (fst (fst (x m)))) (members_after x m).
Proof.
  unfold members_after, bind.
  destruct (x m) as [[a m1] t1]. cbn.
  destruct (k a m1) as [[b m2] t2]. reflexivity.
Qed.



















(** The destructor's task nulls every member. *)
Lemma destruction_nulls_members (m : components_manager) :
  members_after (run_task on_destruction) m
  = mk_components_manager None None None None None None None None None None
      None (allocated m).
Proof.
  members m. destruct vm, gam, cum, rc, gc; children; reflexivity.
Qed.


(** ** The child group is all or nothing *)

Ltac whole :=
  first
    [ left; intros c Hc; destruct c; cbn in *; congruence
    | right; intros c Hc; destruct c; cbn in *; congruence ].

Lemma run_task_keeps_child_group_atomic (t : task) (m : components_manager) :
  child_group_atomic m -> child_group_atomic (members_after (run_task t) m).
Proof.
  intros H. members m.
  assert (Hc : (cm = None /\ mpm = None /\ upm = None /\ spm = None
                /\ fao = None /\ iso = None)
               \/ (cm <> None /\ mpm <> None /\ upm <> None /\ spm <> None
                   /\ fao <> None /\ iso <> None)).
  { destruct H as [H | H]; [left | right]; repeat split;
      first [ apply (H configuration_monitor eq_refl)
            | apply (H menu_process_manager eq_refl)
            | apply (H updater_process_manager eq_refl)
            | apply (H system_preferences_monitor eq_refl)
            | apply (H frontmost_application_observer eq_refl)
            | apply (H input_source_observer eq_refl) ]. }
  clear H.
  destruct Hc as [(-> & -> & -> & -> & -> & ->) | (H1 & H2 & H3 & H4 & H5 & H6)].
  - destruct t as [uid | | | | alerts | | | | p | b f | ids |];
      try destruct alerts; try destruct (N.eqb uid getuid) eqn:E;
      unfold members_after; cbn; rewrite ?E; cbn;
      repeat match goal with
             | |- context [String.eqb ?a ?b] => destruct (String.eqb a b)
             end;
      destruct vm, gam, cum, rc, gc; cbn; whole.
  - destruct cm, mpm, upm, spm, fao, iso; try congruence.
    destruct t as [uid | | | | alerts | | | | p | b f | ids |];
      try destruct alerts; try destruct (N.eqb uid getuid) eqn:E;
      unfold members_after; cbn; rewrite ?E; cbn;
      repeat match goal with
             | |- context [String.eqb ?a ?b] => destruct (String.eqb a b)
             end;
      destruct vm, gam, cum, rc, gc; cbn; whole.
Qed.

(** X1.  The child group is never partial at a task boundary: if the six
    child members are all null or all held before a queue of tasks runs,
    they are all null or all held after it, and so they are after any
    queue run since the constructor. *)
Theorem child_group_all_or_nothing (q : list task) :
  (forall m, child_group_atomic m ->
             child_group_atomic (members_after (process q) m))
  /\ child_group_atomic (members_after (lifetime q) null_members).
Proof.
  assert (Hq : forall m, child_group_atomic m ->
                         child_group_atomic (members_after (process q) m)).
  { induction q as [| t q IH]; intros m H.
    - exact H.
    - rewrite members_after_process_cons.
      apply IH, run_task_keeps_child_group_atomic, H. }
  split; [exact Hq |].
  unfold lifetime. rewrite members_after_bind. apply Hq.
  left. intros c Hc. destruct c; cbn in *; congruence.
Qed.

(** ** Receiver bound, client connected *)

(** X4.  The [bound] task always ends with a new client, whatever was
    held: the client and child group held before are released first,
    client ahead of children, and only then is the new client
    constructed, connected to [connected], [connect_failed] and [closed],
    and started.  The guard of [start_grabber_client] never fires here.
    The child group is null afterwards and no other member is written. *)
Theorem receiver_bound_restarts_client (m : components_manager) :
  let m' := members_after (run_task on_receiver_bound) m in
  let gc' := allocated m in
  trace_of (run_task on_receiver_bound) m
  = release_held m (grabber_client :: child_group)
    ++ [constructed grabber_client gc' no_arg;
        subscribed grabber_client gc' connected;
        subscribed grabber_client gc' connect_failed;
        subscribed grabber_client gc' closed;
        started grabber_client gc']
  /\ grabber_client_ m' = Some gc'
  /\ child_group_absent m'
  /\ (forall c, c <> grabber_client -> is_child c = false ->
                slot c m' = slot c m).
Proof.
  members m. destruct gc; children; cbn; repeat split;
    intros c; destruct c; cbn; congruence.
Qed.

(** X5.  The [connected] task checks the version (when the version monitor
    is held), calls [async_connect_console_user_server] on the client when
    one is held, releases the child group held before, and then builds the
    whole child group anew.  Afterwards all six child members are held,
    with instances numbered from the configuration monitor on, and this is
    so even when [grabber_client_] is null: the task builds the child group
    without a client.  No member outside the child group is written.  Such
    a run exists: when the receiver's [closed] task is queued between the
    [bound] task and the client's [connected] task, the queue ends with a
    complete child group and no client. *)
Theorem client_connected_rebuilds_child_group (m : components_manager) :
  let m' := members_after (run_task on_grabber_client_connected) m in
  let n := allocated m in
  let stale :=
    members_after
      (lifetime [on_console_user_id_changed getuid;
                 on_receiver_bound;
                 on_receiver_closed;
                 on_grabber_client_connected])
      null_members in
  (trace_of (run_task on_grabber_client_connected) m
  = manual_check_if_held m
    ++ match grabber_client_ m with
       | Some g => [async_connect_console_user_server g]
       | None => []
       end
    ++ release_held m child_group
    ++ [constructed configuration_monitor n
          (with_path user_core_configuration_file_path);
        constructed menu_process_manager (n + 1)
          (with_configuration_monitor (Some n));
        constructed updater_process_manager (n + 2)
          (with_configuration_monitor (Some n));
        constructed system_preferences_monitor (n + 3)
          (with_configuration_monitor (Some n));
        subscribed system_preferences_monitor (n + 3)
          system_preferences_changed;
        started system_preferences_monitor (n + 3);
        constructed frontmost_application_observer (n + 4) no_arg;
        subscribed frontmost_application_observer (n + 4)
          frontmost_application_changed;
        started frontmost_application_observer (n + 4);
        constructed input_source_observer (n + 5) no_arg;
        subscribed input_source_observer (n + 5) input_source_changed;
        started input_source_observer (n + 5);
        started configuration_monitor n]
  /\ configuration_monitor_ m' = Some n
  /\ menu_process_manager_ m' = Some (n + 1)
  /\ updater_process_manager_ m' = Some (n + 2)
  /\ system_preferences_monitor_ m' = Some (n + 3)
  /\ frontmost_application_observer_ m' = Some (n + 4)
  /\ input_source_observer_ m' = Some (n + 5)
  /\ child_group_present m'
  /\ (forall c, is_child c = false -> slot c m' = slot c m))
  /\ (grabber_client_ stale = None /\ child_group_present stale).
Proof.
  cbn zeta. split.
  - members m. cbn [allocated].
    replace (n + 1) with (S n) by lia.
    replace (n + 2) with (S (S n)) by lia.
    replace (n + 3) with (S (S (S n))) by lia.
    replace (n + 4) with (S (S (S (S n)))) by lia.
    replace (n + 5) with (S (S (S (S (S n))))) by lia.
    destruct vm, gc; children; cbn; repeat split;
      intros c Hc; destruct c; cbn in *; congruence.
  - cbv [members_after lifetime]. cbn. rewrite N.eqb_refl. cbn.
    split; [reflexivity |].
    intros c Hc; destruct c; cbn in *; congruence.
Qed.

(** X6.  From any members, the [bound] task followed by the [connected]
    task leaves a new client and a complete child group, and announces
    the console user server on that new client. *)
Theorem bound_then_connected_is_active (m : components_manager) :
  let run := process [on_receiver_bound; on_grabber_client_connected] in
  let m' := members_after run m in
  let gc' := allocated m in
  grabber_client_ m' = Some gc'
  /\ child_group_present m'
  /\ configuration_monitor_ m' = Some (gc' + 1)
  /\ count (fun e => match e with
                     | async_connect_console_user_server g => Nat.eqb g gc'
                     | _ => false
                     end) (trace_of run m) = 1
  /\ receiver_ m' = receiver_ m.
Proof.
  members m. cbn zeta. cbn [allocated].
  replace (n + 1) with (S n) by lia.
  destruct vm, gc; children; cbn; rewrite ?Nat.eqb_refl; repeat split;
    intros c Hc; destruct c; cbn in *; congruence.
Qed.

(** ** Input source, and forwarding around a failed client *)

(** X7.  An [input_source_changed] task run while [grabber_client_] is
    non-null makes exactly one [async_input_source_changed] call, on that
    client and with the identifiers of the signal, and writes no member.
    Run while [grabber_client_] is null it does nothing, and the queue
    goes on as if it had not been pushed. *)
Theorem input_source_forwarded_once
  (ids : input_source_identifiers) (m : components_manager) :
  (forall g, grabber_client_ m = Some g ->
     run_task (on_input_source_changed ids) m
     = (tt, m, [async_input_source_changed g ids]))
  /\ (grabber_client_ m = None ->
      run_task (on_input_source_changed ids) m = (tt, m, [])
      /\ forall q, process (on_input_source_changed ids :: q) m = process q m).
Proof.
  split.
  - intros g H. members m. cbn in H. subst. reflexivity.
  - intros H. members m. cbn in H. subst.
    split; [reflexivity |].
    intros q. apply process_skip. reflexivity.
Qed.

(** X11.  The client's [connect_failed] and [closed] tasks do not stop
    forwarding: a system preferences task queued behind either of them is
    still forwarded, to the very client that failed or closed. *)
Theorem failed_client_still_receives
  (t : task) (g : instance) (p : system_preferences)
  (m : components_manager) :
  t = on_grabber_client_connect_failed \/ t = on_grabber_client_closed ->
  grabber_client_ m = Some g ->
  trace_of (process [t; on_system_preferences_changed p]) m
  = manual_check_if_held m
    ++ release_held m child_group
    ++ [async_system_preferences_updated g p].
Proof.
  intros [-> | ->] H; members m; cbn in H; subst;
    destruct vm; children; reflexivity.
Qed.

(** X12.  After a task that stops the client (bind failed, receiver
    closed, foreign uid) observer tasks queued behind it forward nothing:
    the trace of the queue holds the releases of the stop and no call on a
    client. *)
Theorem stopped_client_receives_nothing
  (p : system_preferences) (ids : input_source_identifiers)
  (bundle_identifier file_path : string) (m : components_manager) :
  let observers :=
    [on_system_preferences_changed p;
     on_frontmost_application_changed bundle_identifier file_path;
     on_input_source_changed ids] in
  trace_of (process (on_receiver_bind_failed :: observers)) m
  = release_held m (grabber_client :: child_group)
  /\ trace_of (process (on_receiver_closed :: observers)) m
     = release_held m (grabber_client :: child_group)
  /\ (forall uid, uid <> getuid ->
        trace_of (process (on_console_user_id_changed uid :: observers)) m
        = manual_check_if_held m
          ++ [create_directory_with_intermediate_directories
                user_configuration_directory mode_0700]
          ++ release_held m (grabber_client :: child_group)).
Proof.
  cbv zeta. members m. split; [| split].
  - destruct gc; children; cbn;
      destruct (String.eqb _ _ || String.eqb _ _); reflexivity.
  - destruct gc; children; cbn;
      destruct (String.eqb _ _ || String.eqb _ _); reflexivity.
  - intros uid Hne. apply N.eqb_neq in Hne.
    destruct vm, gc; children; cbn; rewrite Hne; cbn;
      destruct (String.eqb _ _ || String.eqb _ _); reflexivity.
Qed.

(** ** Repetition and guards *)

(** X8.  A second [console_user_id_changed] task with the same foreign uid
    finds nothing left to stop: it repeats the version check and the
    directory creation, releases nothing and leaves every member as the
    first task left it. *)
Theorem repeated_other_uid_releases_nothing
  (uid : uid_t) (m : components_manager) :
  uid <> getuid ->
  let t := on_console_user_id_changed uid in
  let m1 := members_after (run_task t) m in
  run_task t m1
  = (tt, m1,
     manual_check_if_held m
     ++ [create_directory_with_intermediate_directories
           user_configuration_directory mode_0700]).
Proof.
  intros Hne. apply N.eqb_neq in Hne. members m.
  destruct vm, gc; children; cbv [members_after]; cbn; rewrite Hne; cbn;
    rewrite ?Hne; reflexivity.
Qed.

(** X10.  [start_grabber_alerts_monitor] and [start_grabber_client] do
    nothing when their member is already non-null: the instance held is
    neither replaced nor started again.  Called twice in a row, the second
    call is always such a no-op. *)
Theorem start_guards (m : components_manager) :
  (grabber_alerts_monitor_ m <> None ->
     start_grabber_alerts_monitor m = (tt, m, []))
  /\ (grabber_client_ m <> None -> start_grabber_client m = (tt, m, []))
  /\ (let m1 := members_after start_grabber_alerts_monitor m in
      start_grabber_alerts_monitor m1 = (tt, m1, []))
  /\ (let m1 := members_after start_grabber_client m in
      start_grabber_client m1 = (tt, m1, [])).
Proof.
  members m. cbn zeta. repeat split.
  - cbn. intros H. destruct gam; [reflexivity | congruence].
  - cbn. intros H. destruct gc; [reflexivity | congruence].
  - destruct gam; reflexivity.
  - destruct gc; reflexivity.
Qed.

(** ** Long-lived monitors *)

Lemma run_task_keeps_core (t : task) (m : components_manager) :
  t <> on_destruction ->
  let m' := members_after (run_task t) m in
  version_monitor_ m' = version_monitor_ m
  /\ grabber_alerts_monitor_ m' = grabber_alerts_monitor_ m
  /\ console_user_id_monitor_ m' = console_user_id_monitor_ m
  /\ (t <> on_console_user_id_changed getuid -> receiver_ m' = receiver_ m).
Proof.
  intros Hd. members m.
  destruct t as [uid | | | | alerts | | | | p | b f | ids |];
    try congruence;
    try destruct alerts;
    try (destruct (N.eqb uid getuid) eqn:E;
         [apply N.eqb_eq in E; subst uid |]);
    cbv [members_after]; cbn; rewrite ?N.eqb_refl, ?E; cbn;
    repeat match goal with
           | |- context [String.eqb ?a ?b] => destruct (String.eqb a b)
           end;
    destruct vm, gc; children; cbn; repeat split; congruence.
Qed.

(** X9.  Only the destructor's task writes [version_monitor_],
    [grabber_alerts_monitor_] and [console_user_id_monitor_]: every other
    task, and so every queue without the destructor's task, leaves all
    three as they were.  [receiver_] is written only by the destructor's
    task and by the task for the process's own uid. *)
Theorem monitors_outlive_tasks (t : task) (m : components_manager) :
  t <> on_destruction ->
  let m' := members_after (run_task t) m in
  version_monitor_ m' = version_monitor_ m
  /\ grabber_alerts_monitor_ m' = grabber_alerts_monitor_ m
  /\ console_user_id_monitor_ m' = console_user_id_monitor_ m
  /\ (t <> on_console_user_id_changed getuid -> receiver_ m' = receiver_ m)
  /\ (forall q, Forall (fun u => u <> on_destruction) q ->
        let mq := members_after (process q) m in
        version_monitor_ mq = version_monitor_ m
        /\ grabber_alerts_monitor_ mq = grabber_alerts_monitor_ m
        /\ console_user_id_monitor_ mq = console_user_id_monitor_ m).
Proof.
  intros Hd. cbv zeta.
  assert (Hq : forall q m0,
             Forall (fun u => u <> on_destruction) q ->
             version_monitor_ (members_after (process q) m0)
             = version_monitor_ m0
             /\ grabber_alerts_monitor_ (members_after (process q) m0)
                = grabber_alerts_monitor_ m0
             /\ console_user_id_monitor_ (members_after (process q) m0)
                = console_user_id_monitor_ m0).
  { induction q as [| u q IH]; intros m0 HF.
    - repeat split.
    - inversion HF as [| ? ? Hu HF']; subst.
      rewrite members_after_process_cons.
      destruct (IH (members_after (run_task u) m0) HF') as (Q1 & Q2 & Q3).
      destruct (run_task_keeps_core u m0 Hu) as (R1 & R2 & R3 & _).
      rewrite Q1, Q2, Q3. repeat split; assumption. }
  destruct (run_task_keeps_core t m Hd) as (H1 & H2 & H3 & H4).
  repeat split; try assumption; apply Hq; assumption.
Qed.

(** ** Who builds what *)

Ltac by_task t :=
  destruct t as [uid | | | | alerts | | | | p | b f | ids |];
  try congruence;
  try destruct alerts;
  try destruct (N.eqb uid getuid) eqn:E;
  cbv [members_after]; cbn;
  try match goal with
      | E : N.eqb _ _ = _ |- _ => rewrite ?E
      end;
  cbn;
  repeat match goal with
         | |- context [String.eqb ?a ?b] => destruct (String.eqb a b)
         end.

Lemma receiver_stays_null (t : task) (m : components_manager) :
  t <> on_console_user_id_changed getuid ->
  receiver_ m = None -> receiver_ (members_after (run_task t) m) = None.
Proof.
  intros Ht H.
  assert (Hd : t = on_destruction \/ t <> on_destruction)
    by (destruct t; ((left; reflexivity) || (right; discriminate))).
  destruct Hd as [-> | Hd].
  - rewrite destruction_nulls_members. reflexivity.
  - rewrite <- H. apply run_task_keeps_core; assumption.
Qed.

Lemma client_stays_null (t : task) (m : components_manager) :
  t <> on_receiver_bound ->
  grabber_client_ m = None ->
  grabber_client_ (members_after (run_task t) m) = None.
Proof.
  intros Ht H.
  assert (Hd : t = on_destruction \/ t <> on_destruction)
    by (destruct t; ((left; reflexivity) || (right; discriminate))).
  destruct Hd as [-> | Hd]; [rewrite destruction_nulls_members; reflexivity |].
  members m. cbn in H. subst gc.
  by_task t; destruct vm; children; reflexivity.
Qed.

Lemma children_stay_absent (t : task) (m : components_manager) :
  t <> on_grabber_client_connected ->
  child_group_absent m -> child_group_absent (members_after (run_task t) m).
Proof.
  intros Ht H. members m.
  pose proof (H configuration_monitor eq_refl) as H1.
  pose proof (H menu_process_manager eq_refl) as H2.
  pose proof (H updater_process_manager eq_refl) as H3.
  pose proof (H system_preferences_monitor eq_refl) as H4.
  pose proof (H frontmost_application_observer eq_refl) as H5.
  pose proof (H input_source_observer eq_refl) as H6.
  cbn in H1, H2, H3, H4, H5, H6. subst. clear H.
  assert (Hd : t = on_destruction \/ t <> on_destruction)
    by (destruct t; ((left; reflexivity) || (right; discriminate))).
  destruct Hd as [-> | Hd].
  - rewrite destruction_nulls_members.
    intros c Hc; destruct c; cbn in *; congruence.
  - by_task t; destruct vm, gc; cbn;
      intros c Hc; destruct c; cbn in *; congruence.
Qed.

Lemma receiver_null_through (q : list task) (m : components_manager) :
  Forall (fun t => t <> on_console_user_id_changed getuid) q ->
  receiver_ m = None -> receiver_ (members_after (process q) m) = None.
Proof.
  revert m. induction q as [| t q IH]; intros m HF H; [exact H |].
  inversion HF; subst. rewrite members_after_process_cons.
  apply IH; [assumption | apply receiver_stays_null; assumption].
Qed.

Lemma client_null_through (q : list task) (m : components_manager) :
  Forall (fun t => t <> on_receiver_bound) q ->
  grabber_client_ m = None ->
  grabber_client_ (members_after (process q) m) = None.
Proof.
  revert m. induction q as [| t q IH]; intros m HF H; [exact H |].
  inversion HF; subst. rewrite members_after_process_cons.
  apply IH; [assumption | apply client_stays_null; assumption].
Qed.

Lemma children_absent_through (q : list task) (m : components_manager) :
  Forall (fun t => t <> on_grabber_client_connected) q ->
  child_group_absent m -> child_group_absent (members_after (process q) m).
Proof.
  revert m. induction q as [| t q IH]; intros m HF H; [exact H |].
  inversion HF; subst. rewrite members_after_process_cons.
  apply IH; [assumption | apply children_stay_absent; assumption].
Qed.

(** X14.  Each transient member is built by one task only.  Since the
    constructor, a queue without a task for the process's own uid leaves
    [receiver_] null; a queue without a [bound] task leaves
    [grabber_client_] null; a queue without a [connected] task leaves the
    whole child group null. *)
Theorem nothing_is_built_unasked (q : list task) :
  let m' := members_after (lifetime q) null_members in
  (Forall (fun t => t <> on_console_user_id_changed getuid) q ->
     receiver_ m' = None)
  /\ (Forall (fun t => t <> on_receiver_bound) q ->
      grabber_client_ m' = None)
  /\ (Forall (fun t => t <> on_grabber_client_connected) q ->
      child_group_absent m').
Proof.
  cbv zeta. unfold lifetime. rewrite members_after_bind.
  change (members_after construct null_members) with constructed_members.
  split; [| split]; intros HF.
  - apply receiver_null_through; [exact HF | reflexivity].
  - apply client_null_through; [exact HF | reflexivity].
  - apply children_absent_through; [exact HF |].
    intros c Hc; destruct c; cbn in *; congruence.
Qed.

(** ** Order of forwarding *)

(** X13.  While a client is held, a queue of system preferences and input
    source tasks is forwarded call for call in the order of the queue, all
    to that client, and no member is written. *)
Theorem forwarding_keeps_queue_order
  (xs : list (system_preferences + input_source_identifiers))
  (g : instance) (m : components_manager) :
  grabber_client_ m = Some g ->
  let task_of x :=
    match x with
    | inl p => on_system_preferences_changed p
    | inr ids => on_input_source_changed ids
    end in
  let call_of x :=
    match x with
    | inl p => async_system_preferences_updated g p
    | inr ids => async_input_source_changed g ids
    end in
  process (map task_of xs) m = (tt, m, map call_of xs).
Proof.
  intros H. cbv zeta. members m. cbn in H. subst gc.
  induction xs as [| x xs IH]; [reflexivity |].
  cbn [map process]. unfold bind.
  destruct x as [p | ids]; cbn; rewrite IH; reflexivity.
Qed.


End Manager.

Arguments run_task {_ _ _} getuid t m.
Arguments process {_ _ _} getuid q m.
Arguments members_after {_ _ _} x m.
Arguments trace_of {_ _ _} x m.
Arguments releases {_ _} t.
Arguments on_console_user_id_changed {_ _ _} uid.
Arguments on_receiver_bind_failed {_ _ _}.
Arguments on_receiver_closed {_ _ _}.
Arguments on_grabber_client_connect_failed {_ _ _}.
Arguments on_grabber_client_closed {_ _ _}.
Arguments on_system_preferences_changed {_ _ _} p.
Arguments on_frontmost_application_changed {_ _ _} bundle_identifier file_path.
Arguments on_destruction {_ _ _}.
Arguments async_manual_check {_ _} vm.
Arguments create_directory_with_intermediate_directories {_ _} p mode.
Arguments async_system_preferences_updated {_ _} gc p.
Arguments async_frontmost_application_changed {_ _} gc bundle_identifier file_path.

(** ** Concrete runs

    The process runs as uid 501; the payloads are a boolean for the system
    preferences, strings for input source identifiers and alerts.  After
    construction and the start-up sequence the instances are numbered:
    version monitor 0, alerts monitor 1, console user id monitor 2,
    receiver 3, client 4, configuration monitor 5, menu process manager 6,
    updater process manager 7, system preferences monitor 8, frontmost
    application observer 9, input source observer 10. *)

(** C1, refuted as stated.  The own-uid task run on the active members
    keeps the client and the whole child group: they are not absent
    afterwards. *)
Lemma own_uid_while_active_keeps_client_and_children :
  let m := active_members bool string string 501%N in
  let t : task bool string string := on_console_user_id_changed 501%N in
  let m' := members_after (run_task 501%N t) m in
  grabber_client_ m' = Some 4
  /\ configuration_monitor_ m' = Some 5
  /\ input_source_observer_ m' = Some 10
  /\ ~ (grabber_client_ m' = None /\ child_group_absent m').
Proof.
  cbv zeta. repeat split; try reflexivity.
  intros [H _]. vm_compute in H. discriminate H.
Qed.

(** Witness for C1: the active members are numbered, and their receiver 3
    is not the receiver 11 the task constructs. *)
Lemma own_uid_replaces_receiver_only_witness :
  let m := active_members bool string string 501%N in
  numbered m /\ receiver_ m <> Some (allocated m).
Proof.
  cbv zeta.
  assert (Hn : numbered (active_members bool string string 501%N))
    by (intros c i; destruct c; cbn; intros H; inversion H; lia).
  split; [exact Hn |].
  apply (proj1 (proj2 (own_uid_replaces_receiver_only bool string string
                         501%N (active_members bool string string 501%N)))).
  exact Hn.
Defined.

(** C2, refuted as stated.  The task for the foreign uid 502 run on the
    active members leaves the receiver in place. *)
Lemma other_uid_while_active_keeps_receiver :
  let m := active_members bool string string 501%N in
  let t : task bool string string := on_console_user_id_changed 502%N in
  let m' := members_after (run_task 501%N t) m in
  receiver_ m = Some 3 /\ receiver_ m' = Some 3 /\ receiver_ m' <> None.
Proof.
  cbv zeta. repeat split. vm_compute. discriminate.
Qed.

(** Witness for C2 at uid 502 against own uid 501, on the active members. *)
Lemma other_uid_stops_client_keeps_receiver_witness :
  502%N <> 501%N
  /\ let m := active_members bool string string 501%N in
     let t : task bool string string := on_console_user_id_changed 502%N in
     let m' := members_after (run_task 501%N t) m in
     grabber_client_ m' = None
     /\ child_group_absent m'
     /\ receiver_ m' = receiver_ m
     /\ version_monitor_ m' = version_monitor_ m
     /\ grabber_alerts_monitor_ m' = grabber_alerts_monitor_ m
     /\ console_user_id_monitor_ m' = console_user_id_monitor_ m
     /\ ~ In receiver (releases (trace_of (run_task 501%N t) m)).
Proof.
  split; [discriminate |].
  apply (other_uid_stops_client_keeps_receiver bool string string
           501%N 502%N (active_members bool string string 501%N)).
  discriminate.
Defined.

(** C3, refuted as stated.  On the active members each of the four
    teardowns releases the client before every member of the child group,
    so the order "child group, client, receiver" is not kept. *)
Lemma teardown_while_active_releases_client_before_children :
  let m := active_members bool string string 501%N in
  let order (t : task bool string string) :=
    releases (trace_of (run_task 501%N t) m) in
  order (on_console_user_id_changed 502%N)
  = [grabber_client; menu_process_manager; updater_process_manager;
     system_preferences_monitor; frontmost_application_observer;
     input_source_observer; configuration_monitor]
  /\ children_client_receiver_order (order (on_console_user_id_changed 502%N))
     = false
  /\ children_client_receiver_order (order on_receiver_bind_failed) = false
  /\ children_client_receiver_order (order on_receiver_closed) = false
  /\ children_client_receiver_order (order on_destruction) = false.
Proof. cbv zeta. repeat split. Qed.

(** Witness for C3 at uid 502 against own uid 501, on the active members. *)
Lemma teardown_releases_client_first_witness :
  502%N <> 501%N
  /\ let m := active_members bool string string 501%N in
     let t : task bool string string := on_console_user_id_changed 502%N in
     releases (trace_of (run_task 501%N t) m)
     = held m (grabber_client :: child_group).
Proof.
  split; [discriminate |].
  apply (proj1 (proj2 (teardown_releases_client_first bool string string
                         501%N (active_members bool string string 501%N)))).
  discriminate.
Defined.

(** C4, refuted as stated.  After the client's [closed] task, and after
    its [connect_failed] task, the active members still hold the client. *)
Lemma client_closed_while_active_keeps_client :
  let m := active_members bool string string 501%N in
  let after (t : task bool string string) :=
    members_after (run_task 501%N t) m in
  grabber_client_ (after on_grabber_client_closed) = Some 4
  /\ grabber_client_ (after on_grabber_client_connect_failed) = Some 4
  /\ grabber_client_ (after on_grabber_client_closed) <> None
  /\ grabber_client_ (after on_grabber_client_connect_failed) <> None.
Proof.
  cbv zeta. repeat split; vm_compute; discriminate.
Qed.

(** Witness for C4: the [closed] task on the active members. *)
Lemma client_failure_stops_children_only_witness :
  let m := active_members bool string string 501%N in
  let t : task bool string string := on_grabber_client_closed in
  (t = on_grabber_client_connect_failed \/ t = on_grabber_client_closed)
  /\ (let m' := members_after (run_task 501%N t) m in
      trace_of (run_task 501%N t) m
      = manual_check_if_held bool string m ++ release_held bool string m child_group
      /\ child_group_absent m'
      /\ (forall c, is_child c = false -> slot c m' = slot c m)
      /\ grabber_client_ m' = grabber_client_ m
      /\ receiver_ m' = receiver_ m).
Proof.
  cbv zeta. split; [right; reflexivity |].
  apply (client_failure_stops_children_only bool string string 501%N
           on_grabber_client_closed (active_members bool string string 501%N)).
  right; reflexivity.
Defined.

(** Witness for C5: forwarding on the active members (client 4), dropping
    on the members right after construction (no client). *)
Lemma system_preferences_forwarded_once_witness :
  let active := active_members bool string string 501%N in
  let fresh := constructed_members bool string in
  let t : task bool string string := on_system_preferences_changed true in
  (grabber_client_ active = Some 4
   /\ run_task 501%N t active
      = (tt, active, [async_system_preferences_updated 4 true]))
  /\ (grabber_client_ fresh = None
      /\ run_task 501%N t fresh = (tt, fresh, [])
      /\ forall q, process 501%N (t :: q) fresh = process 501%N q fresh).
Proof.
  cbv zeta. split.
  - split; [reflexivity |].
    apply (proj1 (system_preferences_forwarded_once bool string string 501%N
                    true (active_members bool string string 501%N)) 4).
    reflexivity.
  - split; [reflexivity |].
    apply (proj1 (proj2 (system_preferences_forwarded_once bool string string
                           501%N true (constructed_members bool string)))).
    reflexivity.
Defined.

(** Witness for C6 on the active members: the event viewer is filtered,
    Terminal is forwarded. *)
Lemma frontmost_application_filter_witness :
  let m := active_members bool string string 501%N in
  let viewer : task bool string string :=
    on_frontmost_application_changed
      "org.pqrs.Karabiner-EventViewer"
      "/Applications/Karabiner-EventViewer.app" in
  let terminal : task bool string string :=
    on_frontmost_application_changed
      "com.apple.Terminal" "/Applications/Utilities/Terminal.app" in
  (is_event_viewer "org.pqrs.Karabiner-EventViewer"
   /\ run_task 501%N viewer m = (tt, m, []))
  /\ (~ is_event_viewer "com.apple.Terminal"
      /\ grabber_client_ m = Some 4
      /\ run_task 501%N terminal m
         = (tt, m, [async_frontmost_application_changed 4
                      "com.apple.Terminal"
                      "/Applications/Utilities/Terminal.app"])).
Proof.
  cbv zeta.
  assert (Hv : is_event_viewer "org.pqrs.Karabiner-EventViewer")
    by (right; reflexivity).
  assert (Ht : ~ is_event_viewer "com.apple.Terminal")
    by (intros [H | H]; discriminate H).
  split.
  - split; [exact Hv |].
    apply (proj1 (frontmost_application_filter bool string string 501%N
                    "org.pqrs.Karabiner-EventViewer"
                    "/Applications/Karabiner-EventViewer.app"
                    (active_members bool string string 501%N))).
    exact Hv.
  - split; [exact Ht |]. split; [reflexivity |].
    apply (proj2 (frontmost_application_filter bool string string 501%N
                    "com.apple.Terminal"
                    "/Applications/Utilities/Terminal.app"
                    (active_members bool string string 501%N)) Ht 4).
    reflexivity.
Defined.

(** C8, refuted as stated.  From the members right after construction, the
    second own-uid task makes the same version check and the same
    directory creation as the first, and constructs and starts a second
    receiver: its trace is not empty and the trace of two tasks is not the
    trace of one. *)
Lemma second_own_uid_task_repeats_side_effects :
  let m0 := constructed_members bool string in
  let t : task bool string string := on_console_user_id_changed 501%N in
  let m1 := members_after (run_task 501%N t) m0 in
  let mkdir :=
    create_directory_with_intermediate_directories
      user_configuration_directory mode_0700 in
  trace_of (run_task 501%N t) m0
  = [async_manual_check 0; mkdir;
     constructed bool string receiver 3 no_arg;
     subscribed bool string receiver 3 bound;
     subscribed bool string receiver 3 bind_failed;
     subscribed bool string receiver 3 closed;
     started bool string receiver 3]
  /\ trace_of (run_task 501%N t) m1
     = [async_manual_check 0; mkdir;
        constructed bool string receiver 4 no_arg;
        released bool string receiver 3;
        subscribed bool string receiver 4 bound;
        subscribed bool string receiver 4 bind_failed;
        subscribed bool string receiver 4 closed;
        started bool string receiver 4]
  /\ trace_of (process 501%N [t; t]) m0 <> trace_of (process 501%N [t]) m0.
Proof.
  cbv zeta. repeat split. vm_compute. discriminate.
Qed.

Arguments on_receiver_bound {_ _ _}.
Arguments on_grabber_client_connected {_ _ _}.
Arguments on_input_source_changed {_ _ _} ids.
Arguments async_input_source_changed {_ _} gc ids.

(** ** Concrete runs, continued *)

(** Witness for X1: the active members have the whole child group, and
    keep it whole through a closed client and a rebinding receiver. *)
Lemma child_group_all_or_nothing_witness :
  let m := active_members bool string string 501%N in
  let q : list (task bool string string) :=
    [on_grabber_client_closed; on_receiver_bound] in
  child_group_atomic m
  /\ child_group_atomic (members_after (process 501%N q) m).
Proof.
  cbv zeta.
  assert (H : child_group_atomic (active_members bool string string 501%N))
    by (right; intros c Hc; destruct c; cbn in *; congruence).
  split; [exact H |].
  apply (proj1 (child_group_all_or_nothing bool string string 501%N
                  [on_grabber_client_closed; on_receiver_bound])).
  exact H.
Defined.

(** Witness for X7: forwarding on the active members (client 4), dropping
    on the members right after construction. *)
Lemma input_source_forwarded_once_witness :
  let active := active_members bool string string 501%N in
  let fresh := constructed_members bool string in
  let t : task bool string string :=
    on_input_source_changed "com.apple.keylayout.US" in
  (grabber_client_ active = Some 4
   /\ run_task 501%N t active
      = (tt, active, [async_input_source_changed 4 "com.apple.keylayout.US"]))
  /\ (grabber_client_ fresh = None
      /\ run_task 501%N t fresh = (tt, fresh, [])
      /\ forall q, process 501%N (t :: q) fresh = process 501%N q fresh).
Proof.
  cbv zeta. split.
  - split; [reflexivity |].
    apply (proj1 (input_source_forwarded_once bool string string 501%N
                    "com.apple.keylayout.US"
                    (active_members bool string string 501%N)) 4).
    reflexivity.
  - split; [reflexivity |].
    apply (proj2 (input_source_forwarded_once bool string string 501%N
                    "com.apple.keylayout.US"
                    (constructed_members bool string))).
    reflexivity.
Defined.

(** Witness for X11: the [closed] task on the active members, followed by
    a system preferences task. *)
Lemma failed_client_still_receives_witness :
  let m := active_members bool string string 501%N in
  let t : task bool string string := on_grabber_client_closed in
  (t = on_grabber_client_connect_failed \/ t = on_grabber_client_closed)
  /\ grabber_client_ m = Some 4
  /\ trace_of (process 501%N [t; on_system_preferences_changed true]) m
     = manual_check_if_held bool string m
       ++ release_held bool string m child_group
       ++ [async_system_preferences_updated 4 true].
Proof.
  cbv zeta. split; [right; reflexivity |]. split; [reflexivity |].
  apply (failed_client_still_receives bool string string 501%N
           on_grabber_client_closed 4 true
           (active_members bool string string 501%N)).
  - right; reflexivity.
  - reflexivity.
Defined.

(** Witness for X12: uid 502 against own uid 501, on the active members. *)
Lemma stopped_client_receives_nothing_witness :
  let m := active_members bool string string 501%N in
  let q : list (task bool string string) :=
    [on_console_user_id_changed 502%N;
     on_system_preferences_changed true;
     on_frontmost_application_changed
       "com.apple.Terminal" "/Applications/Utilities/Terminal.app";
     on_input_source_changed "com.apple.keylayout.US"] in
  502%N <> 501%N
  /\ trace_of (process 501%N q) m
     = manual_check_if_held bool string m
       ++ [create_directory_with_intermediate_directories
             user_configuration_directory mode_0700]
       ++ release_held bool string m (grabber_client :: child_group).
Proof.
  cbv zeta. split; [discriminate |].
  apply (proj2 (proj2 (stopped_client_receives_nothing bool string string
                         501%N true "com.apple.keylayout.US"
                         "com.apple.Terminal"
                         "/Applications/Utilities/Terminal.app"
                         (active_members bool string string 501%N)))).
  discriminate.
Defined.

(** Witness for X8: uid 502 against own uid 501, on the active members. *)
Lemma repeated_other_uid_releases_nothing_witness :
  let m := active_members bool string string 501%N in
  let t : task bool string string := on_console_user_id_changed 502%N in
  let m1 := members_after (run_task 501%N t) m in
  502%N <> 501%N
  /\ run_task 501%N t m1
     = (tt, m1,
        manual_check_if_held bool string m
        ++ [create_directory_with_intermediate_directories
              user_configuration_directory mode_0700]).
Proof.
  cbv zeta. split; [discriminate |].
  apply (repeated_other_uid_releases_nothing bool string string 501%N 502%N
           (active_members bool string string 501%N)).
  discriminate.
Defined.

(** Witness for X10: on the active members both guards fire. *)
Lemma start_guards_witness :
  let m := active_members bool string string 501%N in
  (grabber_alerts_monitor_ m <> None
   /\ start_grabber_alerts_monitor bool string m = (tt, m, []))
  /\ (grabber_client_ m <> None
      /\ start_grabber_client bool string m = (tt, m, [])).
Proof.
  cbv zeta.
  assert (Ha : grabber_alerts_monitor_ (active_members bool string string 501%N)
               <> None) by (cbn; discriminate).
  assert (Hc : grabber_client_ (active_members bool string string 501%N)
               <> None) by (cbn; discriminate).
  split.
  - split; [exact Ha |].
    apply (proj1 (start_guards bool string
                    (active_members bool string string 501%N))).
    exact Ha.
  - split; [exact Hc |].
    apply (proj1 (proj2 (start_guards bool string
                           (active_members bool string string 501%N)))).
    exact Hc.
Defined.

(** Witness for X9: the foreign-uid task on the active members. *)
Lemma monitors_outlive_tasks_witness :
  let m := active_members bool string string 501%N in
  let t : task bool string string := on_console_user_id_changed 502%N in
  let m' := members_after (run_task 501%N t) m in
  t <> on_destruction
  /\ t <> on_console_user_id_changed 501%N
  /\ version_monitor_ m' = version_monitor_ m
  /\ grabber_alerts_monitor_ m' = grabber_alerts_monitor_ m
  /\ console_user_id_monitor_ m' = console_user_id_monitor_ m
  /\ receiver_ m' = receiver_ m.
Proof.
  cbv zeta.
  assert (Hd : (on_console_user_id_changed 502%N : task bool string string)
               <> on_destruction) by discriminate.
  assert (Hu : (on_console_user_id_changed 502%N : task bool string string)
               <> on_console_user_id_changed 501%N) by discriminate.
  split; [exact Hd |]. split; [exact Hu |].
  destruct (monitors_outlive_tasks bool string string 501%N
              (on_console_user_id_changed 502%N)
              (active_members bool string string 501%N) Hd)
    as (H1 & H2 & H3 & H4 & _).
  exact (conj H1 (conj H2 (conj H3 (H4 Hu)))).
Defined.

(** Witness for X13: three observer tasks on the active members. *)
Lemma forwarding_keeps_queue_order_witness :
  let m := active_members bool string string 501%N in
  let q : list (task bool string string) :=
    [on_system_preferences_changed true;
     on_input_source_changed "com.apple.keylayout.US";
     on_system_preferences_changed false] in
  grabber_client_ m = Some 4
  /\ process 501%N q m
     = (tt, m,
        [async_system_preferences_updated 4 true;
         async_input_source_changed 4 "com.apple.keylayout.US";
         async_system_preferences_updated 4 false]).
Proof.
  cbv zeta. split; [reflexivity |].
  apply (forwarding_keeps_queue_order bool string string 501%N
           [inl true; inr "com.apple.keylayout.US"; inl false] 4
           (active_members bool string string 501%N)).
  reflexivity.
Defined.

(** Witness for X14: a queue with a foreign uid, an alert and a failed
    bind builds no receiver, no client and no child. *)
Lemma nothing_is_built_unasked_witness :
  let q : list (task bool string string) :=
    [on_console_user_id_changed 502%N;
     on_alerts_changed bool string string ["alert"];
     on_receiver_bind_failed] in
  let m' := members_after (lifetime bool string string 501%N q) null_members in
  Forall (fun t => t <> on_console_user_id_changed 501%N) q
  /\ Forall (fun t => t <> on_receiver_bound) q
  /\ Forall (fun t => t <> on_grabber_client_connected) q
  /\ receiver_ m' = None
  /\ grabber_client_ m' = None
  /\ child_group_absent m'.
Proof.
  cbv zeta.
  assert (H1 : Forall (fun t : task bool string string =>
                         t <> on_console_user_id_changed 501%N)
                 [on_console_user_id_changed 502%N;
                  on_alerts_changed bool string string ["alert"];
                  on_receiver_bind_failed])
    by (repeat constructor; discriminate).
  assert (H2 : Forall (fun t : task bool string string =>
                         t <> on_receiver_bound)
                 [on_console_user_id_changed 502%N;
                  on_alerts_changed bool string string ["alert"];
                  on_receiver_bind_failed])
    by (repeat constructor; discriminate).
  assert (H3 : Forall (fun t : task bool string string =>
                         t <> on_grabber_client_connected)
                 [on_console_user_id_changed 502%N;
                  on_alerts_changed bool string string ["alert"];
                  on_receiver_bind_failed])
    by (repeat constructor; discriminate).
  destruct (nothing_is_built_unasked bool string string 501%N
              [on_console_user_id_changed 502%N;
               on_alerts_changed bool string string ["alert"];
               on_receiver_bind_failed])
    as (R & G & C).
  exact (conj H1 (conj H2 (conj H3 (conj (R H1) (conj (G H2) (C H3)))))).
Defined.
